(** * Persistence models of hetdesrun ([hetdesrun/persistence/dbmodels.py])

    The two SQL tables [transformation_revisions] and [nestings], their
    constraints (primary keys, the unique constraint, the check constraints,
    NOT NULL and the foreign keys), the bind processing of the JSON column
    [workflow_content], and the pydantic model [FilterParams].

    The database is a pair of tables; a table is a bag of rows, represented
    as a list whose order carries no meaning.  Every SQL statement the store
    accepts is one of [op] below; it either commits (Some) or is rejected with
    an integrity error (None), with the standard SQL semantics of the
    declared constraints.  UUID columns hold 128-bit values, taken as [N]. *)

From Stdlib Require Import ZArith NArith List String Bool Lia.
Import ListNotations.
Set Warnings "-register-all".

Module DBModels.

Definition uuid := N.

(** [hetdesrun.utils.State] and [hetdesrun.utils.Type]. *)
Inductive State := DRAFT | RELEASED | DISABLED.
Inductive Type_ := COMPONENT | WORKFLOW.

(** A JSON document as stored in a [JSON] column.  On the Python side the
    same shape is a Python value: [JNull] is Python [None]. *)
Inductive json :=
| JNull
| JBool (b : bool)
| JNum (z : Z)
| JStr (s : string)
| JArr (l : list json)
| JObj (kv : list (string * json)).

(** What the ORM can be handed for a [JSON] column: a Python value, the
    sentinel [JSON.NULL] (persist the JSON value null), or the SQL [null()]
    construct. *)
Inductive bind_arg :=
| Py (v : json)
| JSON_NULL
| SQL_NULL.

(** Bind processing of [sqlalchemy.JSON(none_as_null=...)]:
    [JSON.NULL] is serialized as the JSON text [null]; [null()], and Python
    [None] when [none_as_null] is set, become SQL NULL; any other value is
    serialized.  [None] in the result is SQL NULL. *)
Definition json_bind_process (none_as_null : bool) (a : bind_arg) : option json :=
  match a with
  | JSON_NULL => Some JNull
  | SQL_NULL => None
  | Py JNull => if none_as_null then None else Some JNull
  | Py v => Some v
  end.

(** ** Table [transformation_revisions]

    NOT NULL columns have plain types, nullable columns an [option]
    ([None] is SQL NULL).  Timestamps are taken as [Z]. *)
Record TransformationRevisionDBModel := {
  id : uuid;
  revision_group_id : uuid;
  name : string;
  description : string;
  category : string;
  version_tag : string;
  state : State;
  type : Type_;
  documentation : string;
  workflow_content : option json;
  component_code : option string;
  io_interface : json;
  test_wiring : json;
  released_timestamp : option Z;
  disabled_timestamp : option Z
}.

(** What the ORM object carries before the INSERT/UPDATE: the same fields,
    with the JSON columns still Python-side.  [wc_in = None] means the
    attribute was not set, so the column default [lambda: None] applies. *)
Record TransformationRevisionInput := {
  id_in : uuid;
  revision_group_id_in : uuid;
  name_in : string;
  description_in : string;
  category_in : string;
  version_tag_in : string;
  state_in : State;
  type_in : Type_;
  documentation_in : string;
  wc_in : option bind_arg;
  component_code_in : option string;
  io_interface_in : bind_arg;
  test_wiring_in : bind_arg;
  released_timestamp_in : option Z;
  disabled_timestamp_in : option Z
}.

(** The row the ORM sends: [workflow_content] is [JSON(none_as_null=True)]
    with default [lambda: None]; [io_interface] and [test_wiring] are plain
    [JSON] ([none_as_null=False]) and NOT NULL, so a SQL NULL there is a
    NOT NULL violation. *)
Definition to_row (r : TransformationRevisionInput)
  : option TransformationRevisionDBModel :=
  let wc := json_bind_process true
              (match wc_in r with Some a => a | None => Py JNull end) in
  match json_bind_process false (io_interface_in r),
        json_bind_process false (test_wiring_in r) with
  | Some io, Some tw =>
      Some {| id := id_in r;
              revision_group_id := revision_group_id_in r;
              name := name_in r;
              description := description_in r;
              category := category_in r;
              version_tag := version_tag_in r;
              state := state_in r;
              type := type_in r;
              documentation := documentation_in r;
              workflow_content := wc;
              component_code := component_code_in r;
              io_interface := io;
              test_wiring := tw;
              released_timestamp := released_timestamp_in r;
              disabled_timestamp := disabled_timestamp_in r |}
  | _, _ => None
  end.

(** The row an UPDATE of the stored row [old] writes: as [to_row], except
    that an unset [workflow_content] attribute is not in the SET list, so
    the stored value is kept. *)
Definition to_update_row (old : TransformationRevisionDBModel)
  (r : TransformationRevisionInput) : option TransformationRevisionDBModel :=
  match to_row r with
  | Some row =>
      match wc_in r with
      | Some _ => Some row
      | None =>
          Some {| id := id row; revision_group_id := revision_group_id row;
                  name := name row; description := description row;
                  category := category row; version_tag := version_tag row;
                  state := state row; type := type row;
                  documentation := documentation row;
                  workflow_content := workflow_content old;
                  component_code := component_code row;
                  io_interface := io_interface row; test_wiring := test_wiring row;
                  released_timestamp := released_timestamp row;
                  disabled_timestamp := disabled_timestamp row |}
      end
  | None => None
  end.

(** SQL [CASE WHEN c THEN t ELSE e END] on a condition that is never
    UNKNOWN (every column it reads is NOT NULL or tested with IS NULL). *)
Definition case_when (c : bool) (t e : Z) : Z := if c then t else e.

Definition is_null {A : Type} (o : option A) : bool :=
  match o with None => true | Some _ => false end.

(** CHECK [_exactly_one_of_component_code_or_workflow_content_null_cc]. *)
Definition exactly_one_of_component_code_or_workflow_content_null_cc
  (r : TransformationRevisionDBModel) : bool :=
  (case_when (is_null (component_code r)) 0 1
   + case_when (is_null (workflow_content r)) 0 1 =? 1)%Z.

(** The columns of UNIQUE [_revision_group_id_plus_version_tag_uc]. *)
Definition revision_group_id_plus_version_tag (r : TransformationRevisionDBModel)
  : uuid * string :=
  (revision_group_id r, version_tag r).

Definition uc_eq_dec (a b : uuid * string) : {a = b} + {a <> b}.
Proof. decide equality; [apply string_dec | apply N.eq_dec]. Defined.

(** ** Table [nestings] *)
Record NestingDBModel := {
  workflow_id : uuid;
  via_transformation_id : uuid;
  via_operator_id : uuid;
  depth : Z;
  nested_transformation_id : uuid;
  nested_operator_id : uuid
}.

(** The primary key columns. *)
Definition nesting_pk (n : NestingDBModel) : uuid * uuid * Z * uuid :=
  (workflow_id n, via_operator_id n, depth n, nested_operator_id n).

Definition pk_eq_dec (a b : uuid * uuid * Z * uuid) : {a = b} + {a <> b}.
Proof. decide equality; try apply N.eq_dec; decide equality; try apply N.eq_dec;
  try apply Z.eq_dec; decide equality; apply N.eq_dec. Defined.

(** CHECK [_depth_natural_number_cc]. *)
Definition depth_natural_number_cc (n : NestingDBModel) : bool :=
  (depth n >? 0)%Z.

(** CHECK [_via_ids_equal_nested_ids_for_direct_nesting_cc]. *)
Definition via_ids_equal_nested_ids_for_direct_nesting_cc (n : NestingDBModel) : bool :=
  (case_when (depth n >? 1) 1 0
   + case_when (via_transformation_id n =? nested_transformation_id n)%N 1 0
     * case_when (via_operator_id n =? nested_operator_id n)%N 1 0 =? 1)%Z.

(** ** The database and the statements it accepts *)
Record DB := {
  transformation_revisions : list TransformationRevisionDBModel;
  nestings : list NestingDBModel
}.

Definition empty_db : DB := {| transformation_revisions := []; nestings := [] |}.

Definition tr_ids (db : DB) : list uuid := map id (transformation_revisions db).

(** A row of [nestings] refers to transformation revision [i] through one of
    its three foreign keys. *)
Definition references_tr (i : uuid) (n : NestingDBModel) : bool :=
  ((workflow_id n =? i) || (via_transformation_id n =? i)
   || (nested_transformation_id n =? i))%N.

(** The many-to-one [relationship(TransformationRevisionDBModel,
    foreign_keys=[col])] of [NestingDBModel] ([workflow],
    [via_transformation], [nested_transformation]): the revision whose
    primary key [id] equals the foreign-key column [i]. *)
Definition related_tr (db : DB) (i : uuid) : option TransformationRevisionDBModel :=
  find (fun r => (id r =? i)%N) (transformation_revisions db).

(** The constraints a new [transformation_revisions] row is checked
    against, given the other rows of the table: PRIMARY KEY [id], UNIQUE
    [(revision_group_id, version_tag)] and the CHECK. *)
Definition tr_row_admissible (others : list TransformationRevisionDBModel)
  (r : TransformationRevisionDBModel) : bool :=
  if in_dec N.eq_dec (id r) (map id others) then false
  else if in_dec uc_eq_dec (revision_group_id_plus_version_tag r)
            (map revision_group_id_plus_version_tag others) then false
  else exactly_one_of_component_code_or_workflow_content_null_cc r.

(** [INSERT INTO transformation_revisions]. *)
Definition insert_tr (db : DB) (r : TransformationRevisionDBModel) : option DB :=
  if tr_row_admissible (transformation_revisions db) r
  then Some {| transformation_revisions := transformation_revisions db ++ [r];
               nestings := nestings db |}
  else None.

Definition other_trs (db : DB) (i : uuid) : list TransformationRevisionDBModel :=
  filter (fun x => negb (id x =? i)%N) (transformation_revisions db).

(** [DELETE FROM transformation_revisions WHERE id = i]: the foreign keys
    of [nestings] have no ON DELETE action, so a referenced row cannot go. *)
Definition delete_tr (db : DB) (i : uuid) : option DB :=
  if existsb (references_tr i) (nestings db) then None
  else Some {| transformation_revisions := other_trs db i;
               nestings := nestings db |}.

(** [UPDATE transformation_revisions SET ... WHERE id = i]: no row matched
    leaves the table as it is; otherwise the new row is checked against the
    remaining rows, and changing a referenced [id] is refused (no ON UPDATE
    action). *)
Definition update_tr (db : DB) (i : uuid) (r : TransformationRevisionDBModel)
  : option DB :=
  if in_dec N.eq_dec i (tr_ids db) then
    if negb (id r =? i)%N && existsb (references_tr i) (nestings db) then None
    else if tr_row_admissible (other_trs db i) r
    then Some {| transformation_revisions := other_trs db i ++ [r];
                 nestings := nestings db |}
    else None
  else Some db.

(** [INSERT INTO nestings]: PRIMARY KEY, both CHECKs and the three foreign
    keys. *)
Definition insert_nesting (db : DB) (n : NestingDBModel) : option DB :=
  if in_dec pk_eq_dec (nesting_pk n) (map nesting_pk (nestings db)) then None
  else if negb (depth_natural_number_cc n) then None
  else if negb (via_ids_equal_nested_ids_for_direct_nesting_cc n) then None
  else if in_dec N.eq_dec (workflow_id n) (tr_ids db) then
    if in_dec N.eq_dec (via_transformation_id n) (tr_ids db) then
      if in_dec N.eq_dec (nested_transformation_id n) (tr_ids db) then
        Some {| transformation_revisions := transformation_revisions db;
                nestings := nestings db ++ [n] |}
      else None
    else None
  else None.

(** [DELETE FROM nestings WHERE p]. *)
Definition delete_nestings (db : DB) (p : NestingDBModel -> bool) : option DB :=
  Some {| transformation_revisions := transformation_revisions db;
          nestings := filter (fun n => negb (p n)) (nestings db) |}.

Inductive op :=
| InsertTR (r : TransformationRevisionInput)
| UpdateTR (i : uuid) (r : TransformationRevisionInput)
| DeleteTR (i : uuid)
| InsertNesting (n : NestingDBModel)
| DeleteNestings (p : NestingDBModel -> bool).

Definition step (db : DB) (o : op) : option DB :=
  match o with
  | InsertTR r => match to_row r with Some row => insert_tr db row | None => None end
  | UpdateTR i r =>
      match related_tr db i with
      | Some old =>
          match to_update_row old r with Some row => update_tr db i row | None => None end
      | None => Some db
      end
  | DeleteTR i => delete_tr db i
  | InsertNesting n => insert_nesting db n
  | DeleteNestings p => delete_nestings db p
  end.

(** Statements run in order; a rejected statement aborts the sequence. *)
Fixpoint run (db : DB) (os : list op) : option DB :=
  match os with
  | [] => Some db
  | o :: os' => match step db o with Some db' => run db' os' | None => None end
  end.

(** The states the database can be in. *)
Inductive reachable : DB -> Prop :=
| reachable_empty : reachable empty_db
| reachable_step db o db' : reachable db -> step db o = Some db' -> reachable db'.

End DBModels.

(** * [FilterParams] (pydantic) *)
Module Filter.
Import DBModels.

Record FilterParams := {
  type : option Type_;
  state : option State;
  category : option string;
  revision_group_id : option uuid;
  ids : option (list uuid);
  names : option (list string);
  include_deprecated : bool;
  include_dependencies : bool;
  unused : bool
}.

(** The keyword arguments of a call [FilterParams(...)]: [None] is an
    argument not passed, [Some v] an argument passed with value [v] (for an
    [Optional] field [v] may itself be Python [None]). *)
Record FilterParamsKwargs := {
  type_kw : option (option Type_);
  state_kw : option (option State);
  category_kw : option (option string);
  revision_group_id_kw : option (option uuid);
  ids_kw : option (option (list uuid));
  names_kw : option (option (list string));
  include_deprecated_kw : option bool;
  include_dependencies_kw : option bool;
  unused_kw : option bool
}.

Definition no_kwargs : FilterParamsKwargs :=
  {| type_kw := None; state_kw := None; category_kw := None;
     revision_group_id_kw := None; ids_kw := None; names_kw := None;
     include_deprecated_kw := None; include_dependencies_kw := None;
     unused_kw := None |}.

(** The value of a field: the argument if passed, else the [Field] default. *)
Definition field_or {A : Type} (v : option A) (default : A) : A :=
  match v with Some x => x | None => default end.

Section Construction.
(** The string types [ValidStr] and [NonEmptyValidStr] come from
    [hetdesrun.models.code]; their acceptance tests are left abstract. *)
Variable ValidStr : string -> bool.
Variable NonEmptyValidStr : string -> bool.

Definition valid_category (c : option string) : bool :=
  match c with None => true | Some s => ValidStr s end.

Definition valid_names (ns : option (list string)) : bool :=
  match ns with None => true | Some l => forallb NonEmptyValidStr l end.

(** [FilterParams] called with the arguments [kw]: fields take the argument or their default
    ([None] for the predicates, [True], [False], [False] for the flags);
    [None] as a result is a [ValidationError]. *)
Definition make_FilterParams (kw : FilterParamsKwargs) : option FilterParams :=
  let fp := {| type := field_or (type_kw kw) None;
               state := field_or (state_kw kw) None;
               category := field_or (category_kw kw) None;
               revision_group_id := field_or (revision_group_id_kw kw) None;
               ids := field_or (ids_kw kw) None;
               names := field_or (names_kw kw) None;
               include_deprecated := field_or (include_deprecated_kw kw) true;
               include_dependencies := field_or (include_dependencies_kw kw) false;
               unused := field_or (unused_kw kw) false |} in
  if valid_category (category fp) && valid_names (names fp) then Some fp else None.
End Construction.

End Filter.

(** * Concrete database states *)
Module Examples.
Import DBModels.
Open Scope string_scope.
Open Scope N_scope.

Definition tr_in (i rg : uuid) (vt : string) (t : Type_) (wc : option bind_arg)
  (code : option string) : TransformationRevisionInput :=
  {| id_in := i; revision_group_id_in := rg; name_in := "Add";
     description_in := ""; category_in := "Arithmetic"; version_tag_in := vt;
     state_in := DRAFT; type_in := t; documentation_in := "";
     wc_in := wc; component_code_in := code;
     io_interface_in := Py (JObj [("inputs", JArr []); ("outputs", JArr [])]);
     test_wiring_in := Py (JObj []);
     released_timestamp_in := None; disabled_timestamp_in := None |}.

Definition component_1 := tr_in 1 10 "1.0.0" COMPONENT None (Some "def main(*, a, b): return a + b").
Definition workflow_2 :=
  tr_in 2 20 "1.0.0" WORKFLOW (Some (Py (JObj [("operators", JArr [])]))) None.

Definition direct_nesting : NestingDBModel :=
  {| workflow_id := 2; via_transformation_id := 1; via_operator_id := 100;
     depth := 1; nested_transformation_id := 1; nested_operator_id := 100 |}.

Definition example_ops : list op :=
  [InsertTR component_1; InsertTR workflow_2; InsertNesting direct_nesting].

Definition example_db : DB :=
  match run empty_db example_ops with Some db => db | None => empty_db end.

(** Inputs the schema accepts although neither is what the type suggests:
    a COMPONENT carrying a workflow body, one with empty code, and a
    WORKFLOW whose content is the JSON value null. *)
Definition component_with_workflow_body :=
  tr_in 3 30 "1.0.0" COMPONENT (Some (Py (JObj [("operators", JArr [])]))) None.
Definition component_with_empty_code := tr_in 4 40 "1.0.0" COMPONENT None (Some "").
Definition workflow_json_null := tr_in 5 50 "1.0.0" WORKFLOW (Some JSON_NULL) None.

Definition odd_ops : list op :=
  [InsertTR component_with_workflow_body; InsertTR component_with_empty_code;
   InsertTR workflow_json_null].

(** [example_db] with a second direct operator instance of component 1. *)
Definition second_direct_nesting : NestingDBModel :=
  {| workflow_id := 2; via_transformation_id := 1; via_operator_id := 101;
     depth := 1; nested_transformation_id := 1; nested_operator_id := 101 |}.

Definition example_ops2 : list op := example_ops ++ [InsertNesting second_direct_nesting].

Definition example_db2 : DB :=
  match run empty_db example_ops2 with Some db => db | None => empty_db end.

Definition odd_db : DB :=
  match run empty_db odd_ops with Some db => db | None => empty_db end.

End Examples.

(** * Invariants of the reachable database states *)
Module Store.
Import DBModels.

Definition fk_ok (db : DB) (n : NestingDBModel) : Prop :=
  In (workflow_id n) (tr_ids db) /\ In (via_transformation_id n) (tr_ids db)
  /\ In (nested_transformation_id n) (tr_ids db).

Record Inv (db : DB) : Prop := {
  inv_ids : NoDup (tr_ids db);
  inv_uc : NoDup (map revision_group_id_plus_version_tag (transformation_revisions db));
  inv_cc : Forall (fun r => exactly_one_of_component_code_or_workflow_content_null_cc r = true)
             (transformation_revisions db);
  inv_pk : NoDup (map nesting_pk (nestings db));
  inv_nest_cc : Forall (fun n => depth_natural_number_cc n = true
                          /\ via_ids_equal_nested_ids_for_direct_nesting_cc n = true)
                  (nestings db);
  inv_fk : Forall (fk_ok db) (nestings db)
}.

(** ** List facts *)
Lemma NoDup_snoc {A : Type} (l : list A) (a : A) :
  NoDup l -> ~ In a l -> NoDup (l ++ [a]).
Proof.
  induction l as [|x l IH]; simpl; intros Hnd Hni.
  - constructor; [intros [] | constructor].
  - inversion Hnd as [|? ? Hx Hl]; subst.
    constructor.
    + rewrite in_app_iff; simpl; intros [H | [H | []]]; [contradiction | subst; tauto].
    + apply IH; tauto.
Qed.

Lemma NoDup_map_filter {A B : Type} (f : A -> B) (p : A -> bool) (l : list A) :
  NoDup (map f l) -> NoDup (map f (filter p l)).
Proof.
  induction l as [|x l IH]; simpl; intros Hnd; [constructor|].
  inversion Hnd as [|? ? Hx Hl]; subst.
  destruct (p x); simpl; [constructor|]; auto.
  intros Hin; apply Hx, in_map_iff.
  apply in_map_iff in Hin; destruct Hin as [y [Hy Hin]].
  apply filter_In in Hin; exists y; tauto.
Qed.

Lemma Forall_filter' {A : Type} (P : A -> Prop) (p : A -> bool) (l : list A) :
  Forall P l -> Forall P (filter p l).
Proof.
  rewrite !Forall_forall; intros H x Hx; apply filter_In in Hx; apply H; tauto.
Qed.

Lemma Forall_snoc {A : Type} (P : A -> Prop) (l : list A) (a : A) :
  Forall P l -> P a -> Forall P (l ++ [a]).
Proof. intros; apply Forall_app; auto. Qed.

Lemma existsb_false_forall {A : Type} (p : A -> bool) (l : list A) :
  existsb p l = false -> forall x, In x l -> p x = false.
Proof.
  intros H x Hx; destruct (p x) eqn:E; auto.
  exfalso; assert (existsb p l = true) by (apply existsb_exists; eauto); congruence.
Qed.

(** ** Facts about the statements *)
Lemma tr_row_admissible_spec others r :
  tr_row_admissible others r = true ->
  ~ In (id r) (map id others)
  /\ ~ In (revision_group_id_plus_version_tag r) (map revision_group_id_plus_version_tag others)
  /\ exactly_one_of_component_code_or_workflow_content_null_cc r = true.
Proof.
  unfold tr_row_admissible.
  destruct (in_dec _ _ _); [discriminate|].
  destruct (in_dec _ _ _); [discriminate|]; auto.
Qed.

Lemma references_tr_false i n :
  references_tr i n = false ->
  workflow_id n <> i /\ via_transformation_id n <> i /\ nested_transformation_id n <> i.
Proof.
  unfold references_tr; rewrite !orb_false_iff, !N.eqb_neq; tauto.
Qed.

Lemma in_other_trs db i x :
  In x (tr_ids db) -> x <> i -> In x (map id (other_trs db i)).
Proof.
  unfold tr_ids, other_trs; intros Hx Hne.
  apply in_map_iff in Hx; destruct Hx as [r [<- Hr]].
  apply in_map_iff; exists r; split; auto.
  apply filter_In; split; auto.
  apply negb_true_iff, N.eqb_neq; auto.
Qed.

Lemma in_ids_snoc l r x :
  In x (map id l) \/ x = id r -> In x (map id (l ++ [r])).
Proof. rewrite map_app, in_app_iff; simpl; intros [H | H]; auto. Qed.

Lemma fk_ok_mono db db' n :
  (forall x, In x (tr_ids db) -> In x (tr_ids db')) -> fk_ok db n -> fk_ok db' n.
Proof. unfold fk_ok; intuition. Qed.

Lemma fk_ok_without db db' i n :
  (forall x, In x (tr_ids db) -> x <> i -> In x (tr_ids db')) ->
  references_tr i n = false -> fk_ok db n -> fk_ok db' n.
Proof.
  unfold fk_ok; intros Hsub Href; apply references_tr_false in Href; intuition.
Qed.

(** ** Each statement keeps the invariant *)
Lemma insert_tr_inv db r db' : Inv db -> insert_tr db r = Some db' -> Inv db'.
Proof.
  unfold insert_tr; intros [Hid Huc Hcc Hpk Hncc Hfk] H.
  destruct (tr_row_admissible _ r) eqn:Ha; [|discriminate].
  injection H as <-.
  apply tr_row_admissible_spec in Ha as (Hi & Hu & Hc).
  constructor; simpl; auto.
  - unfold tr_ids; simpl; rewrite map_app; apply NoDup_snoc; auto.
  - rewrite map_app; apply NoDup_snoc; auto.
  - apply Forall_snoc; auto.
  - eapply Forall_impl; [|exact Hfk]; intros n.
    apply fk_ok_mono; intros x Hx; apply in_ids_snoc; auto.
Qed.

Lemma delete_tr_inv db i db' : Inv db -> delete_tr db i = Some db' -> Inv db'.
Proof.
  unfold delete_tr; intros [Hid Huc Hcc Hpk Hncc Hfk] H.
  destruct (existsb _ _) eqn:Hr; [discriminate|].
  injection H as <-.
  pose proof (existsb_false_forall _ _ Hr) as Hr'.
  constructor; simpl; auto.
  - apply NoDup_map_filter; auto.
  - apply NoDup_map_filter; auto.
  - apply Forall_filter'; auto.
  - rewrite Forall_forall in Hfk |- *; intros n Hn.
    apply (fk_ok_without db _ i); auto.
    intros x Hx Hne; apply in_other_trs; auto.
Qed.

Lemma update_tr_inv db i r db' : Inv db -> update_tr db i r = Some db' -> Inv db'.
Proof.
  unfold update_tr; intros HI H.
  destruct (in_dec N.eq_dec i (tr_ids db)) as [Hin|Hnin]; [|injection H as <-; auto].
  destruct HI as [Hid Huc Hcc Hpk Hncc Hfk].
  destruct (negb (id r =? i)%N && existsb (references_tr i) (nestings db)) eqn:Hg;
    [discriminate|].
  destruct (tr_row_admissible _ r) eqn:Ha; [|discriminate].
  injection H as <-.
  apply tr_row_admissible_spec in Ha as (Hi & Hu & Hc).
  constructor; simpl; auto.
  - unfold tr_ids; simpl; rewrite map_app; apply NoDup_snoc; auto.
    apply NoDup_map_filter; auto.
  - rewrite map_app; apply NoDup_snoc; auto; apply NoDup_map_filter; auto.
  - apply Forall_snoc; auto; apply Forall_filter'; auto.
  - rewrite Forall_forall in Hfk |- *; intros n Hn.
    destruct (id r =? i)%N eqn:Ei.
    + apply N.eqb_eq in Ei.
      apply (fk_ok_mono db); auto.
      intros x Hx; apply in_ids_snoc.
      destruct (N.eq_dec x i) as [->|Hne]; [right; auto | left; apply in_other_trs; auto].
    + simpl in Hg.
      apply (fk_ok_without db _ i); auto.
      * intros x Hx Hne; apply in_ids_snoc; left; apply in_other_trs; auto.
      * apply (existsb_false_forall _ _ Hg); auto.
Qed.

Lemma insert_nesting_inv db n db' : Inv db -> insert_nesting db n = Some db' -> Inv db'.
Proof.
  unfold insert_nesting; intros [Hid Huc Hcc Hpk Hncc Hfk] H.
  destruct (in_dec _ _ _) as [|Hnpk]; [discriminate|].
  destruct (depth_natural_number_cc n) eqn:Hd; [|discriminate].
  destruct (via_ids_equal_nested_ids_for_direct_nesting_cc n) eqn:Hv; [|discriminate].
  destruct (in_dec N.eq_dec (workflow_id n) _) as [Hw|]; [|discriminate].
  destruct (in_dec N.eq_dec (via_transformation_id n) _) as [Hvia|]; [|discriminate].
  destruct (in_dec N.eq_dec (nested_transformation_id n) _) as [Hnest|]; [|discriminate].
  injection H as <-.
  constructor; simpl; auto.
  - rewrite map_app; apply NoDup_snoc; auto.
  - apply Forall_snoc; auto.
  - apply Forall_snoc; [|repeat split; auto].
    eapply Forall_impl; [|exact Hfk]; intros m; apply fk_ok_mono; auto.
Qed.

Lemma delete_nestings_inv db p db' : Inv db -> delete_nestings db p = Some db' -> Inv db'.
Proof.
  unfold delete_nestings; intros [Hid Huc Hcc Hpk Hncc Hfk] H.
  injection H as <-.
  constructor; simpl; auto.
  - apply NoDup_map_filter; auto.
  - apply Forall_filter'; auto.
  - apply Forall_filter'; eapply Forall_impl; [|exact Hfk]; intros m; apply fk_ok_mono; auto.
Qed.

Lemma step_inv db o db' : Inv db -> step db o = Some db' -> Inv db'.
Proof.
  destruct o; simpl; intros HI H.
  - destruct (to_row r); [eapply insert_tr_inv; eauto | discriminate].
  - destruct (related_tr db i) as [old|]; [|injection H as <-; exact HI].
    destruct (to_update_row old r); [eapply update_tr_inv; eauto | discriminate].
  - eapply delete_tr_inv; eauto.
  - eapply insert_nesting_inv; eauto.
  - eapply delete_nestings_inv; eauto.
Qed.

Lemma reachable_inv db : reachable db -> Inv db.
Proof.
  induction 1.
  - constructor; simpl; constructor.
  - eapply step_inv; eauto.
Qed.

Lemma run_reachable db os db' : reachable db -> run db os = Some db' -> reachable db'.
Proof.
  revert db; induction os as [|o os IH]; simpl; intros db Hr H.
  - injection H as <-; auto.
  - destruct (step db o) eqn:E; [|discriminate].
    eapply IH; [eapply reachable_step; eauto | auto].
Qed.

Lemma NoDup_positions {A B : Type} (f : A -> B) (l : list A) i j a b :
  NoDup (map f l) -> i <> j -> nth_error l i = Some a -> nth_error l j = Some b ->
  f a <> f b.
Proof.
  intros Hnd Hij Ha Hb Heq; apply Hij.
  apply (proj1 (NoDup_nth_error (map f l)) Hnd).
  - apply nth_error_Some; rewrite nth_error_map, Ha; discriminate.
  - rewrite !nth_error_map, Ha, Hb; simpl; congruence.
Qed.

End Store.

(** * The claims *)
Module Claims.
Import DBModels Store Examples.
Open Scope string_scope.
Open Scope N_scope.

Example example_ops_commit : run empty_db example_ops <> None.
Proof. vm_compute; discriminate. Qed.

(** A second tag of the same revision group is accepted, a repeated one is
    not. *)
Example new_version_tag_accepted :
  run example_db [InsertTR (tr_in 3 10 "1.0.1" COMPONENT None (Some "code"))] <> None.
Proof. vm_compute; discriminate. Qed.

Example repeated_version_tag_rejected :
  run example_db [InsertTR (tr_in 3 10 "1.0.0" COMPONENT None (Some "code"))] = None.
Proof. vm_compute; reflexivity. Qed.

Example both_contents_rejected :
  run empty_db [InsertTR (tr_in 3 30 "1.0.0" WORKFLOW (Some (Py (JObj []))) (Some "code"))] = None.
Proof. vm_compute; reflexivity. Qed.

Example no_content_rejected :
  run empty_db [InsertTR (tr_in 3 30 "1.0.0" COMPONENT (Some (Py JNull)) None)] = None.
Proof. vm_compute; reflexivity. Qed.

(** Depth 2 with via identity equal to nested identity violates the CHECK;
    depth 0 violates the other one; a dangling reference violates a foreign
    key; deleting a referenced revision is refused. *)
Example depth2_identical_rejected :
  run example_db [InsertNesting {| workflow_id := 2; via_transformation_id := 1;
     via_operator_id := 100; depth := 2; nested_transformation_id := 1;
     nested_operator_id := 100 |}] = None.
Proof. vm_compute; reflexivity. Qed.

Example depth0_rejected :
  run example_db [InsertNesting {| workflow_id := 2; via_transformation_id := 1;
     via_operator_id := 101; depth := 0; nested_transformation_id := 1;
     nested_operator_id := 101 |}] = None.
Proof. vm_compute; reflexivity. Qed.

Example dangling_reference_rejected :
  run example_db [InsertNesting {| workflow_id := 2; via_transformation_id := 7;
     via_operator_id := 101; depth := 1; nested_transformation_id := 7;
     nested_operator_id := 101 |}] = None.
Proof. vm_compute; reflexivity. Qed.

Example referenced_delete_rejected : run example_db [DeleteTR 1] = None.
Proof. vm_compute; reflexivity. Qed.

Example unreferenced_delete_after_unnesting :
  run example_db [DeleteNestings (fun n => (workflow_id n =? 2)%N); DeleteTR 1] <> None.
Proof. vm_compute; discriminate. Qed.

(** An UPDATE that leaves [workflow_content] unset keeps the stored body;
    one that sets it to Python [None] clears it, which the CHECK refuses for
    a revision without code. *)
Example update_unset_content_kept :
  match run example_db [UpdateTR 2 (tr_in 2 20 "1.0.0" WORKFLOW None None)] with
  | Some db => map workflow_content (transformation_revisions db)
               = map workflow_content (transformation_revisions example_db)
  | None => False
  end.
Proof. vm_compute; reflexivity. Qed.

Example update_none_content_rejected :
  run example_db [UpdateTR 2 (tr_in 2 20 "1.0.0" WORKFLOW (Some (Py JNull)) None)] = None.
Proof. vm_compute; reflexivity. Qed.

Lemma example_db_reachable : reachable example_db.
Proof.
  apply (Store.run_reachable empty_db example_ops); [constructor | reflexivity].
Qed.

Lemma odd_db_reachable : reachable odd_db.
Proof.
  apply (Store.run_reachable empty_db odd_ops); [constructor | reflexivity].
Qed.

Lemma NoDup_map_same_key {A B : Type} (f : A -> B) (l : list A) a b :
  NoDup (map f l) -> In a l -> In b l -> f a = f b -> a = b.
Proof.
  intros Hnd Ha Hb Hf.
  apply In_nth_error in Ha as [i Hi]; apply In_nth_error in Hb as [j Hj].
  destruct (Nat.eq_dec i j) as [->|Hij]; [congruence|].
  exfalso; exact (NoDup_positions f l i j a b Hnd Hij Hi Hj Hf).
Qed.

Lemma stored_nesting_checks db n :
  reachable db -> In n (nestings db) ->
  depth_natural_number_cc n = true
  /\ via_ids_equal_nested_ids_for_direct_nesting_cc n = true.
Proof.
  intros Hr Hn; pose proof (inv_nest_cc _ (reachable_inv _ Hr)) as H.
  rewrite Forall_forall in H; auto.
Qed.

Lemma stored_revision_check db r :
  reachable db -> In r (transformation_revisions db) ->
  exactly_one_of_component_code_or_workflow_content_null_cc r = true.
Proof.
  intros Hr Hin; pose proof (inv_cc _ (reachable_inv _ Hr)) as H.
  rewrite Forall_forall in H; auto.
Qed.

Lemma exactly_one_cc_spec r :
  exactly_one_of_component_code_or_workflow_content_null_cc r = true <->
  (component_code r <> None /\ workflow_content r = None)
  \/ (component_code r = None /\ workflow_content r <> None).
Proof.
  unfold exactly_one_of_component_code_or_workflow_content_null_cc, case_when.
  destruct (component_code r), (workflow_content r); simpl;
    split; intuition (try discriminate; try congruence).
Qed.

(** C1: every stored transformation revision has exactly one of
    [component_code] and [workflow_content] non-NULL: never both, never
    neither. *)
Theorem stored_revision_exactly_one_content db r :
  reachable db -> In r (transformation_revisions db) ->
  (component_code r <> None /\ workflow_content r = None)
  \/ (component_code r = None /\ workflow_content r <> None).
Proof.
  intros Hr Hin; apply exactly_one_cc_spec; eapply stored_revision_check; eauto.
Qed.

Lemma stored_revision_exactly_one_content_witness :
  exists r, In r (transformation_revisions example_db)
  /\ ((component_code r <> None /\ workflow_content r = None)
      \/ (component_code r = None /\ workflow_content r <> None)).
Proof.
  assert (Hin : exists r, In r (transformation_revisions example_db))
    by (vm_compute; eexists; left; reflexivity).
  destruct Hin as [r Hr]; exists r; split; [exact Hr|].
  apply (stored_revision_exactly_one_content example_db r); [|exact Hr].
  apply (run_reachable empty_db example_ops); [constructor | reflexivity].
Defined.


(** C2: for every stored nesting row, [depth = 1] holds exactly when
    [via_transformation_id = nested_transformation_id] and
    [via_operator_id = nested_operator_id]; with [depth > 1] one of the two
    pairs differs. *)
Theorem nesting_depth_one_iff_via_is_nested db n :
  reachable db -> In n (nestings db) ->
  (depth n = 1%Z <->
     via_transformation_id n = nested_transformation_id n
     /\ via_operator_id n = nested_operator_id n)
  /\ ((depth n > 1)%Z ->
     via_transformation_id n <> nested_transformation_id n
     \/ via_operator_id n <> nested_operator_id n).
Proof.
  intros Hr Hn; destruct (stored_nesting_checks db n Hr Hn) as [Hd Hv].
  unfold depth_natural_number_cc in Hd;
  unfold via_ids_equal_nested_ids_for_direct_nesting_cc, case_when in Hv.
  apply Z.gtb_lt in Hd.
  destruct (depth n >? 1)%Z eqn:E1;
  destruct (via_transformation_id n =? nested_transformation_id n) eqn:E2;
  destruct (via_operator_id n =? nested_operator_id n) eqn:E3;
  simpl in Hv; try discriminate;
  rewrite ?Z.gtb_ltb, ?Z.ltb_lt, ?Z.ltb_ge, ?N.eqb_eq, ?N.eqb_neq in *;
  split; (split || intros); try tauto; try lia.
Qed.

Lemma nesting_depth_one_iff_via_is_nested_witness :
  exists n, In n (nestings example_db)
  /\ (depth n = 1%Z <->
        via_transformation_id n = nested_transformation_id n
        /\ via_operator_id n = nested_operator_id n)
  /\ ((depth n > 1)%Z ->
        via_transformation_id n <> nested_transformation_id n
        \/ via_operator_id n <> nested_operator_id n).
Proof.
  assert (Hin : exists n, In n (nestings example_db))
    by (vm_compute; eexists; left; reflexivity).
  destruct Hin as [n Hn]; exists n; split; [exact Hn|].
  apply (nesting_depth_one_iff_via_is_nested example_db n); [|exact Hn].
  apply (run_reachable empty_db example_ops); [constructor | reflexivity].
Defined.

(** C3: two distinct stored transformation revisions (rows at different
    positions of the table) differ in [(revision_group_id, version_tag)]. *)
Theorem revision_group_id_version_tag_unique db i j r1 r2 :
  reachable db -> i <> j ->
  nth_error (transformation_revisions db) i = Some r1 ->
  nth_error (transformation_revisions db) j = Some r2 ->
  (revision_group_id r1, version_tag r1) <> (revision_group_id r2, version_tag r2).
Proof.
  intros Hr Hij H1 H2.
  exact (NoDup_positions revision_group_id_plus_version_tag _ i j r1 r2
           (inv_uc _ (reachable_inv _ Hr)) Hij H1 H2).
Qed.

Lemma revision_group_id_version_tag_unique_witness :
  exists r1 r2,
  nth_error (transformation_revisions example_db) 0 = Some r1
  /\ nth_error (transformation_revisions example_db) 1 = Some r2
  /\ (revision_group_id r1, version_tag r1) <> (revision_group_id r2, version_tag r2).
Proof.
  assert (H : exists r1 r2, nth_error (transformation_revisions example_db) 0 = Some r1
                 /\ nth_error (transformation_revisions example_db) 1 = Some r2)
    by (vm_compute; do 2 eexists; split; reflexivity).
  destruct H as (r1 & r2 & H1 & H2); exists r1, r2; split; [exact H1|]; split; [exact H2|].
  apply (revision_group_id_version_tag_unique example_db 0 1 r1 r2); auto.
  apply (run_reachable empty_db example_ops); [constructor | reflexivity].
Defined.

(** C5: [(workflow_id, via_operator_id, depth, nested_operator_id)] is a key
    of the stored nesting rows: rows at different positions differ on it,
    and two stored rows agreeing on it have the same
    [via_transformation_id] and [nested_transformation_id]. *)
Theorem nesting_primary_key_identifies_row db :
  reachable db ->
  (forall i j n1 n2, i <> j ->
     nth_error (nestings db) i = Some n1 -> nth_error (nestings db) j = Some n2 ->
     (workflow_id n1, via_operator_id n1, depth n1, nested_operator_id n1)
     <> (workflow_id n2, via_operator_id n2, depth n2, nested_operator_id n2))
  /\ (forall n1 n2, In n1 (nestings db) -> In n2 (nestings db) ->
     (workflow_id n1, via_operator_id n1, depth n1, nested_operator_id n1)
     = (workflow_id n2, via_operator_id n2, depth n2, nested_operator_id n2) ->
     via_transformation_id n1 = via_transformation_id n2
     /\ nested_transformation_id n1 = nested_transformation_id n2).
Proof.
  intros Hr; pose proof (inv_pk _ (reachable_inv _ Hr)) as Hpk; split.
  - intros i j n1 n2 Hij H1 H2; exact (NoDup_positions nesting_pk _ i j n1 n2 Hpk Hij H1 H2).
  - intros n1 n2 H1 H2 Hk.
    rewrite (NoDup_map_same_key nesting_pk _ n1 n2 Hpk H1 H2 Hk); auto.
Qed.

Lemma nesting_primary_key_identifies_row_witness :
  exists n1 n2,
  nth_error (nestings example_db2) 0 = Some n1
  /\ nth_error (nestings example_db2) 1 = Some n2
  /\ (workflow_id n1, via_operator_id n1, depth n1, nested_operator_id n1)
     <> (workflow_id n2, via_operator_id n2, depth n2, nested_operator_id n2).
Proof.
  assert (H : exists n1 n2, nth_error (nestings example_db2) 0 = Some n1
                 /\ nth_error (nestings example_db2) 1 = Some n2)
    by (vm_compute; do 2 eexists; split; reflexivity).
  destruct H as (n1 & n2 & H1 & H2); exists n1, n2; split; [exact H1|]; split; [exact H2|].
  refine (proj1 (nesting_primary_key_identifies_row example_db2 _) 0%nat 1%nat n1 n2 _ H1 H2);
    [|discriminate].
  apply (run_reachable empty_db example_ops2); [constructor | reflexivity].
Defined.

(** C6: every stored nesting row has a positive [depth]. *)
Theorem nesting_depth_positive db n :
  reachable db -> In n (nestings db) -> (depth n >= 1)%Z.
Proof.
  intros Hr Hn; destruct (stored_nesting_checks db n Hr Hn) as [Hd _].
  unfold depth_natural_number_cc in Hd; apply Z.gtb_lt in Hd; lia.
Qed.

Lemma nesting_depth_positive_witness :
  exists n, In n (nestings example_db) /\ (depth n >= 1)%Z.
Proof.
  assert (Hin : exists n, In n (nestings example_db))
    by (vm_compute; eexists; left; reflexivity).
  destruct Hin as [n Hn]; exists n; split; [exact Hn|].
  apply (nesting_depth_positive example_db n); [|exact Hn].
  apply (run_reachable empty_db example_ops); [constructor | reflexivity].
Defined.

(** C8: the [workflow_id], [via_transformation_id] and
    [nested_transformation_id] of every stored nesting row are ids of stored
    transformation revisions. *)
Theorem nesting_references_existing_revisions db n :
  reachable db -> In n (nestings db) ->
  (exists r, In r (transformation_revisions db) /\ id r = workflow_id n)
  /\ (exists r, In r (transformation_revisions db) /\ id r = via_transformation_id n)
  /\ (exists r, In r (transformation_revisions db) /\ id r = nested_transformation_id n).
Proof.
  intros Hr Hn; pose proof (inv_fk _ (reachable_inv _ Hr)) as H.
  rewrite Forall_forall in H; destruct (H n Hn) as (H1 & H2 & H3).
  unfold tr_ids in *; rewrite in_map_iff in H1, H2, H3.
  repeat split; [destruct H1 | destruct H2 | destruct H3]; eexists; intuition eauto.
Qed.

Lemma nesting_references_existing_revisions_witness :
  exists n, In n (nestings example_db)
  /\ (exists r, In r (transformation_revisions example_db) /\ id r = workflow_id n)
  /\ (exists r, In r (transformation_revisions example_db) /\ id r = via_transformation_id n)
  /\ (exists r, In r (transformation_revisions example_db) /\ id r = nested_transformation_id n).
Proof.
  assert (Hin : exists n, In n (nestings example_db))
    by (vm_compute; eexists; left; reflexivity).
  destruct Hin as [n Hn]; exists n; split; [exact Hn|].
  apply (nesting_references_existing_revisions example_db n); [|exact Hn].
  apply (run_reachable empty_db example_ops); [constructor | reflexivity].
Defined.


(** C4 as stated: a stored COMPONENT has a non-empty [component_code], a
    stored WORKFLOW a non-NULL [workflow_content].  Refuted: the schema
    stores a COMPONENT with NULL [component_code] and a workflow body. *)
Lemma stored_revision_type_selects_content_counterexample :
  ~ (forall db r, reachable db -> In r (transformation_revisions db) ->
       (type r = COMPONENT -> exists c, component_code r = Some c /\ c <> "")
       /\ (type r = WORKFLOW -> workflow_content r <> None)).
Proof.
  intros H.
  assert (Hin : exists r, In r (transformation_revisions odd_db)
                  /\ type r = COMPONENT /\ component_code r = None)
    by (vm_compute; eexists; split; [left; reflexivity | split; reflexivity]).
  destruct Hin as (r & Hr & Ht & Hc).
  destruct (proj1 (H odd_db r odd_db_reachable Hr) Ht) as (c & Hc' & _); congruence.
Qed.

(** C4 as amended: whatever its [type], every stored revision has exactly
    one of [component_code] and [workflow_content] non-NULL; the schema does
    not tie which one to [type] and does not require [component_code] to be
    non-empty, so a COMPONENT with NULL [component_code] and a non-NULL
    [workflow_content], and a COMPONENT with empty [component_code], are
    both storable. *)
Theorem stored_revision_content_not_tied_to_type :
  (forall db r, reachable db -> In r (transformation_revisions db) ->
     (component_code r <> None /\ workflow_content r = None)
     \/ (component_code r = None /\ workflow_content r <> None))
  /\ (exists db r, reachable db /\ In r (transformation_revisions db)
       /\ type r = COMPONENT /\ component_code r = None /\ workflow_content r <> None)
  /\ (exists db r, reachable db /\ In r (transformation_revisions db)
       /\ type r = COMPONENT /\ component_code r = Some "").
Proof.
  split; [|split].
  - intros db r Hr Hin; apply exactly_one_cc_spec; eapply stored_revision_check; eauto.
  - exists odd_db.
    assert (Hin : exists r, In r (transformation_revisions odd_db)
                    /\ type r = COMPONENT /\ component_code r = None
                    /\ workflow_content r <> None)
      by (vm_compute; eexists; split; [left; reflexivity | split; [reflexivity|split; [reflexivity|discriminate]]]).
    destruct Hin as (r & H); exists r; split; [exact odd_db_reachable | exact H].
  - exists odd_db.
    assert (Hin : exists r, In r (transformation_revisions odd_db)
                    /\ type r = COMPONENT /\ component_code r = Some "")
      by (vm_compute; eexists; split; [right; left; reflexivity | split; reflexivity]).
    destruct Hin as (r & H); exists r; split; [exact odd_db_reachable | exact H].
Qed.

Lemma stored_revision_content_not_tied_to_type_witness :
  exists r, In r (transformation_revisions odd_db)
  /\ ((component_code r <> None /\ workflow_content r = None)
      \/ (component_code r = None /\ workflow_content r <> None)).
Proof.
  assert (Hin : exists r, In r (transformation_revisions odd_db))
    by (vm_compute; eexists; left; reflexivity).
  destruct Hin as [r Hr]; exists r; split; [exact Hr|].
  apply (proj1 stored_revision_content_not_tied_to_type odd_db r); [|exact Hr].
  apply (run_reachable empty_db odd_ops); [constructor | reflexivity].
Defined.

(** C7: [FilterParams()] has every predicate [None], [include_deprecated]
    true, [include_dependencies] false and [unused] false. *)
Theorem filter_params_defaults (ValidStr NonEmptyValidStr : string -> bool) :
  Filter.make_FilterParams ValidStr NonEmptyValidStr Filter.no_kwargs =
  Some {| Filter.type := None; Filter.state := None; Filter.category := None;
          Filter.revision_group_id := None; Filter.ids := None; Filter.names := None;
          Filter.include_deprecated := true; Filter.include_dependencies := false;
          Filter.unused := false |}.
Proof. reflexivity. Qed.

(** C10 as stated: no stored revision carries a JSON-null
    [workflow_content].  Refuted: [JSON.NULL] is stored as the JSON value
    null, next to a NULL [component_code]. *)
Lemma no_stored_json_null_workflow_content_counterexample :
  ~ (forall db r, reachable db -> In r (transformation_revisions db) ->
       workflow_content r <> Some JNull).
Proof.
  intros H.
  assert (Hin : exists r, In r (transformation_revisions odd_db)
                  /\ workflow_content r = Some JNull)
    by (vm_compute; eexists; split; [right; right; left; reflexivity | reflexivity]).
  destruct Hin as (r & Hr & Hw); exact (H odd_db r odd_db_reachable Hr Hw).
Qed.

(** C10 as amended: an unset [workflow_content], Python [None] and SQL
    [null()] are stored as SQL NULL (absent for the CHECK); exactly the
    sentinel [JSON.NULL] is stored as the JSON value null, which is not SQL
    NULL, so the CHECK accepts such a row exactly when its [component_code]
    is NULL. *)
Theorem workflow_content_null_normalisation r row :
  to_row r = Some row ->
  (workflow_content row = None <->
     wc_in r = None \/ wc_in r = Some (Py JNull) \/ wc_in r = Some SQL_NULL)
  /\ (workflow_content row = Some JNull <-> wc_in r = Some JSON_NULL)
  /\ (workflow_content row = Some JNull ->
       (exactly_one_of_component_code_or_workflow_content_null_cc row = true
        <-> component_code row = None)).
Proof.
  unfold to_row; intros H.
  destruct (json_bind_process false (io_interface_in r)); [|discriminate].
  destruct (json_bind_process false (test_wiring_in r)); [|discriminate].
  injection H as <-.
  unfold exactly_one_of_component_code_or_workflow_content_null_cc, case_when; simpl.
  destruct (wc_in r) as [[[] | | ] | ]; simpl;
    repeat split; intros; try destruct (component_code_in r); simpl in *;
    intuition (try discriminate; try congruence).
Qed.

Lemma workflow_content_null_normalisation_witness :
  exists row, to_row workflow_json_null = Some row
  /\ (workflow_content row = Some JNull <-> wc_in workflow_json_null = Some JSON_NULL).
Proof.
  assert (H : exists row, to_row workflow_json_null = Some row)
    by (eexists; vm_compute; reflexivity).
  destruct H as [row Hrow]; exists row; split; [exact Hrow|].
  exact (proj1 (proj2 (workflow_content_null_normalisation workflow_json_null row Hrow))).
Defined.

End Claims.

(** * Further properties of the schema *)
Module Extras.
Import DBModels Store Examples.
Open Scope N_scope.

Lemma related_tr_resolves db x :
  reachable db -> In x (tr_ids db) ->
  exists r, related_tr db x = Some r /\ In r (transformation_revisions db) /\ id r = x
  /\ forall r', In r' (transformation_revisions db) -> id r' = x -> r' = r.
Proof.
  intros Hr Hx.
  destruct (related_tr db x) as [r|] eqn:E.
  - apply find_some in E as [Hin Hid]; apply N.eqb_eq in Hid.
    exists r; repeat split; auto.
    intros r' Hr' Hid'.
    apply (Claims.NoDup_map_same_key id _ r' r (inv_ids _ (reachable_inv _ Hr)) Hr' Hin).
    congruence.
  - exfalso; unfold tr_ids in Hx; apply in_map_iff in Hx as [r [Hid Hin]].
    pose proof (find_none _ _ E r Hin) as H; simpl in H.
    rewrite Hid, N.eqb_refl in H; discriminate.
Qed.

(** The relationships [workflow], [via_transformation] and
    [nested_transformation] of every stored nesting row resolve, each to the
    one stored revision carrying that id. *)
Theorem nesting_relationships_resolve db n :
  reachable db -> In n (nestings db) ->
  forall col, (col = workflow_id \/ col = via_transformation_id
               \/ col = nested_transformation_id) ->
  exists r, related_tr db (col n) = Some r /\ In r (transformation_revisions db)
  /\ id r = col n
  /\ forall r', In r' (transformation_revisions db) -> id r' = col n -> r' = r.
Proof.
  intros Hr Hn col Hcol; apply related_tr_resolves; auto.
  pose proof (inv_fk _ (reachable_inv _ Hr)) as H; rewrite Forall_forall in H.
  destruct (H n Hn) as (H1 & H2 & H3).
  destruct Hcol as [-> | [-> | ->]]; auto.
Qed.

Lemma nesting_relationships_resolve_witness :
  exists n, In n (nestings example_db)
  /\ exists r, related_tr example_db (via_transformation_id n) = Some r
     /\ In r (transformation_revisions example_db) /\ id r = via_transformation_id n
     /\ forall r', In r' (transformation_revisions example_db) ->
                   id r' = via_transformation_id n -> r' = r.
Proof.
  assert (Hin : exists n, In n (nestings example_db))
    by (vm_compute; eexists; left; reflexivity).
  destruct Hin as [n Hn]; exists n; split; [exact Hn|].
  apply (nesting_relationships_resolve example_db n); [| exact Hn | auto].
  apply (run_reachable empty_db example_ops); [constructor | reflexivity].
Defined.

(** No two stored transformation revisions (rows at different positions)
    share an [id]. *)
Theorem revision_id_unique db i j r1 r2 :
  reachable db -> i <> j ->
  nth_error (transformation_revisions db) i = Some r1 ->
  nth_error (transformation_revisions db) j = Some r2 ->
  id r1 <> id r2.
Proof.
  intros Hr Hij H1 H2.
  exact (NoDup_positions id _ i j r1 r2 (inv_ids _ (reachable_inv _ Hr)) Hij H1 H2).
Qed.

Lemma revision_id_unique_witness :
  exists r1 r2,
  nth_error (transformation_revisions example_db) 0 = Some r1
  /\ nth_error (transformation_revisions example_db) 1 = Some r2 /\ id r1 <> id r2.
Proof.
  assert (H : exists r1 r2, nth_error (transformation_revisions example_db) 0 = Some r1
                 /\ nth_error (transformation_revisions example_db) 1 = Some r2)
    by (vm_compute; do 2 eexists; split; reflexivity).
  destruct H as (r1 & r2 & H1 & H2); exists r1, r2; split; [exact H1|]; split; [exact H2|].
  apply (revision_id_unique example_db 0 1 r1 r2); auto.
  apply (run_reachable empty_db example_ops); [constructor | reflexivity].
Defined.

Lemma direct_nesting_ids n :
  depth n = 1%Z ->
  via_ids_equal_nested_ids_for_direct_nesting_cc n = true ->
  via_transformation_id n = nested_transformation_id n
  /\ via_operator_id n = nested_operator_id n.
Proof.
  unfold via_ids_equal_nested_ids_for_direct_nesting_cc, case_when; intros Hd Hv.
  rewrite Hd in Hv; simpl in Hv.
  destruct (via_transformation_id n =? nested_transformation_id n) eqn:E2;
  destruct (via_operator_id n =? nested_operator_id n) eqn:E3;
  simpl in Hv; try discriminate.
  apply N.eqb_eq in E2, E3; auto.
Qed.

(** For a given workflow, a direct child operator has at most one depth-1
    nesting row: two stored rows with the same [workflow_id], depth 1 and
    the same [via_operator_id] are the same row, and its
    [via_transformation] and [nested_transformation] are the same revision. *)
Theorem direct_nesting_row_per_operator db n1 n2 :
  reachable db -> In n1 (nestings db) -> In n2 (nestings db) ->
  workflow_id n1 = workflow_id n2 -> depth n1 = 1%Z -> depth n2 = 1%Z ->
  via_operator_id n1 = via_operator_id n2 ->
  n1 = n2 /\ related_tr db (via_transformation_id n1)
             = related_tr db (nested_transformation_id n1).
Proof.
  intros Hr H1 H2 Hw Hd1 Hd2 Ho.
  destruct (Claims.stored_nesting_checks db n1 Hr H1) as [_ Hv1].
  destruct (Claims.stored_nesting_checks db n2 Hr H2) as [_ Hv2].
  destruct (direct_nesting_ids n1 Hd1 Hv1) as [Ht1 Ho1].
  destruct (direct_nesting_ids n2 Hd2 Hv2) as [_ Ho2].
  split; [|rewrite Ht1; reflexivity].
  apply (Claims.NoDup_map_same_key nesting_pk _ n1 n2 (inv_pk _ (reachable_inv _ Hr)) H1 H2).
  unfold nesting_pk; rewrite Hw, Hd1, Hd2, <- Ho1, <- Ho2, Ho; reflexivity.
Qed.

Lemma direct_nesting_row_per_operator_witness :
  exists n, In n (nestings example_db) /\ depth n = 1%Z /\ n = n
  /\ related_tr example_db (via_transformation_id n)
     = related_tr example_db (nested_transformation_id n).
Proof.
  assert (Hin : exists n, In n (nestings example_db) /\ depth n = 1%Z)
    by (vm_compute; eexists; split; [left; reflexivity | reflexivity]).
  destruct Hin as (n & Hn & Hd); exists n; split; [exact Hn|]; split; [exact Hd|].
  apply (direct_nesting_row_per_operator example_db n n); auto.
  apply (run_reachable empty_db example_ops); [constructor | reflexivity].
Defined.


End Extras.
